(** * ACMEProxy provider for libdns: a shallow embedding of [provider.go]

    The provider turns batches of DNS TXT records into HTTP POST requests
    against an ACMEProxy server and checks the echoed answer.  The Go code is
    embedded as Rocq functions over an explicit world state: the state of
    whatever sits behind the HTTP client, together with the trace of the
    exchanges made through [HTTPClient.Do].

    What the Go standard library and [libdns] provide (URL parsing, JSON,
    request construction, base64, the default client, [AbsoluteName]) is not
    code of this package; it is collected in the class [GoEnv] and every
    theorem holds for all its instances. *)

From stdpp Require Import base strings list gmap.
From Stdlib Require Import ZArith Lia.

Local Open Scope string_scope.
Local Open Scope Z_scope.
Local Open Scope list_scope.

(** ** Go values *)

(** A Go call returning [(T, error)] where exactly one of both is meaningful. *)
Inductive result (E A : Type) : Type :=
| Ok (a : A)
| Err (e : E).
Arguments Ok {E A} a.
Arguments Err {E A} e.

(** A Go slice as far as the provider can tell: [nil], or a backing list.
    [len] and [range] do not distinguish [nil] from an empty slice;
    a comparison with [nil] (and [reflect.DeepEqual]) does. *)
Inductive slice (A : Type) : Type :=
| slice_nil
| slice_of (l : list A).
Arguments slice_nil {A}.
Arguments slice_of {A} l.

Definition elems {A} (s : slice A) : list A :=
  match s with
  | slice_nil => []
  | slice_of l => l
  end.

Definition len {A} (s : slice A) : nat := length (elems s).

(** [append(s, x)]: the result is never [nil]. *)
Definition append {A} (s : slice A) (x : A) : slice A :=
  slice_of (elems s ++ [x]).

(** ** libdns *)

Module libdns.

(** [libdns.Record], with the fields the provider reads and writes.
    [TTL] is a [time.Duration], a 64-bit integer that is only copied. *)
Record record : Type := mkRecord {
  ID : string;
  Type' : string;
  Name : string;
  Value : string;
  TTL : Z
}.

(** The zero value [libdns.Record{}]. *)
Definition zero : record :=
  {| ID := ""; Type' := ""; Name := ""; Value := ""; TTL := 0 |}.

End libdns.

(** ** Types of the package *)

(** [type acmeProxy struct], the JSON message in both directions. *)
Record acmeProxy : Type := mkAcmeProxy {
  FQDN : string;
  Value : string
}.

Record Credentials : Type := mkCredentials {
  Username : string;
  Password : string
}.

(** ** The environment: standard library, libdns helper, outside world *)

Class GoEnv : Type := {
  (** [context.Context] *)
  Ctx : Type;
  (** a parsed URL, [url.URL] *)
  URL : Type;
  (** error values created outside this package *)
  LibError : Type;
  (** the bytes of a request or response body *)
  Body : Type;
  (** whatever an HTTP client talks to, and the client's own state *)
  Net : Type;

  (** [libdns.AbsoluteName] *)
  AbsoluteName : string -> string -> string;
  (** [url.ParseRequestURI] on a non-empty string *)
  url_parse_request : string -> result LibError URL;
  (** the error [url.ParseRequestURI] gives for the empty string *)
  url_empty_error : LibError;
  (** the method [JoinPath] of [url.URL] with one element *)
  JoinPath : URL -> string -> URL;
  (** the method [String] of [url.URL] *)
  URL_String : URL -> string;
  (** [json.NewEncoder(buf).Encode(msg)] into a fresh buffer *)
  json_Encode : acmeProxy -> result LibError Body;
  (** [json.NewDecoder(body).Decode(&msg)] into a zero [acmeProxy] *)
  json_Decode : Body -> result LibError acmeProxy;
  (** the checks of [http.NewRequestWithContext] on context, method and URL:
      [None] when it accepts them *)
  request_rejected : Ctx -> string -> string -> option LibError;
  (** [base64.StdEncoding.EncodeToString] *)
  base64 : string -> string
}.

Section Provider.
Context {env : GoEnv}.

(** ** net/http *)

Definition MethodPost : string := "POST".
Definition StatusOK : Z := 200.

(** [http.Request]: what [doAction] sets.  A [http.Header] maps a canonical
    key to its list of values. *)
Record Request : Type := mkRequest {
  req_ctx : Ctx;
  Method : string;
  req_URL : string;
  Header : gmap string (list string);
  req_Body : Body
}.

Record Response : Type := mkResponse {
  StatusCode : Z;
  resp_Body : Body
}.

(** [http.NewRequestWithContext]: an accepted request starts without headers. *)
Definition NewRequestWithContext (ctx : Ctx) (method url : string) (body : Body)
  : result LibError Request :=
  match request_rejected ctx method url with
  | Some err => Err err
  | None => Ok {| req_ctx := ctx; Method := method; req_URL := url;
                  Header := ∅; req_Body := body |}
  end.

(** [req.Header.Set(key, value)] for a key in canonical form: the values of
    the key are replaced by the single [value]. *)
Definition Header_Set (req : Request) (key value : string) : Request :=
  {| req_ctx := req_ctx req; Method := Method req; req_URL := req_URL req;
     Header := <[key := [value]]> (Header req); req_Body := req_Body req |}.

(** [req.SetBasicAuth(username, password)] *)
Definition SetBasicAuth (req : Request) (username password : string) : Request :=
  Header_Set req "Authorization"
    ("Basic " +:+ base64 (username +:+ ":" +:+ password)).

(** [url.ParseRequestURI]: the empty string is refused before anything is
    parsed. *)
Definition ParseRequestURI (rawURL : string) : result LibError URL :=
  if decide (rawURL = "") then Err url_empty_error
  else url_parse_request rawURL.

(** [type HTTPClient interface] with its one method [Do]: an
    implementation answers a request and may change the outside world. *)
Record HTTPClient : Type := mkHTTPClient {
  Do : Request -> Net -> result LibError Response * Net
}.

(** One call of [Do]: the request handed over and what came back. *)
Definition Exchange : Type := Request * result LibError Response.

(** The world a call of the provider runs in.  [trace] records, in order,
    every call of [Do] made so far; the code neither reads nor writes it. *)
Record World : Type := mkWorld {
  net : Net;
  trace : list Exchange
}.

(** [client.Do(req)], recorded in the trace. *)
Definition call_Do (client : HTTPClient) (req : Request) (w : World)
  : result LibError Response * World :=
  let '(res, n) := Do client req (net w) in
  (res, {| net := n; trace := trace w ++ [(req, res)] |}).

(** ** Errors of the package *)

(** One constructor per [fmt.Errorf] of the package, with the operands of
    its format string. *)
Inductive error : Type :=
| ErrOnlyTXT
| ErrMarshal (err : LibError)
| ErrCreateRequest (err : LibError)
| ErrSend (err : LibError)
| ErrStatusCode (code : Z)
| ErrUnmarshal (err : LibError)
| ErrUnexpectedFQDN (fqdn : string)
| ErrUnexpectedValue (value : string)
| ErrInvalidEndpoint (endpoint : string) (err : LibError)
| ErrCouldNot (action name : string) (err : error)
| ErrNoListing.

(** ** The provider *)

Record Provider : Type := mkProvider {
  Provider_Credentials : Credentials;
  Endpoint : string;
  Provider_HTTPClient : option HTTPClient
}.

Section Methods.
(** [http.DefaultClient] *)
Variable DefaultClient : HTTPClient.

Definition getClient (p : Provider) : HTTPClient :=
  match Provider_HTTPClient p with
  | None => DefaultClient
  | Some c => c
  end.

(** A Go result pair [(T, error)] and the world after the call. *)
Definition returns (T : Type) : Type := (T * option error) * World.

(** [doAction].  The deferred [resp.Body.Close()] has no part in what the
    function returns and is left out. *)
Definition doAction (p : Provider) (ctx : Ctx) (endpoint : URL)
    (action zone : string) (record : libdns.record) (w : World)
  : returns libdns.record :=
  (* We only support TXT records *)
  if decide (libdns.Type' record ≠ "TXT") then
    (libdns.zero, Some ErrOnlyTXT, w)
  else
  (* Create Request Body *)
  let msg := {| FQDN := AbsoluteName (libdns.Name record) zone;
                Value := libdns.Value record |} in
  match json_Encode msg with
  | Err err => (libdns.zero, Some (ErrMarshal err), w)
  | Ok reqBody =>
  (* Create Request *)
  match NewRequestWithContext ctx MethodPost (URL_String endpoint) reqBody with
  | Err err => (libdns.zero, Some (ErrCreateRequest err), w)
  | Ok req =>
  let req := Header_Set req "Accept" "application/json" in
  let req := Header_Set req "Content-Type" "application/json" in
  (* Add Basic Auth *)
  let req :=
    if decide (Username (Provider_Credentials p) ≠ ""
               ∨ Password (Provider_Credentials p) ≠ "")
    then SetBasicAuth req (Username (Provider_Credentials p))
                          (Password (Provider_Credentials p))
    else req in
  (* Send Request *)
  let '(res, w) := call_Do (getClient p) req w in
  match res with
  | Err err => (libdns.zero, Some (ErrSend err), w)
  | Ok resp =>
  (* Validate Response *)
  if decide (StatusCode resp ≠ StatusOK) then
    (libdns.zero, Some (ErrStatusCode (StatusCode resp)), w)
  else
  match json_Decode (resp_Body resp) with
  | Err err => (libdns.zero, Some (ErrUnmarshal err), w)
  | Ok respMsg =>
  if decide (FQDN respMsg ≠ AbsoluteName (libdns.Name record) zone) then
    (libdns.zero, Some (ErrUnexpectedFQDN (FQDN respMsg)), w)
  else if decide (Value respMsg ≠ libdns.Value record) then
    (libdns.zero, Some (ErrUnexpectedValue (Value respMsg)), w)
  else
    ({| libdns.ID := libdns.ID record;
        libdns.Type' := "TXT";
        libdns.Name := libdns.Name record;
        libdns.Value := libdns.Value record;
        libdns.TTL := libdns.TTL record |}, None, w)
  end end end end.

(** The [for _, record := range records] loop of [doActions], started with
    the records still to visit and the completed records so far. *)
Fixpoint doActions_loop (p : Provider) (ctx : Ctx) (endpoint : URL)
    (action zone : string) (records : list libdns.record)
    (completedRecords : slice libdns.record) (w : World)
  : returns (slice libdns.record) :=
  match records with
  | [] => (completedRecords, None, w)
  | record :: records =>
      let '(completedRecord, err, w) :=
        doAction p ctx endpoint action zone record w in
      match err with
      | Some err =>
          (completedRecords,
           Some (ErrCouldNot action (libdns.Name record) err), w)
      | None =>
          (* Add Record to completed set *)
          doActions_loop p ctx endpoint action zone records
            (append completedRecords completedRecord) w
      end
  end.

Definition doActions (p : Provider) (ctx : Ctx) (action zone : string)
    (records : slice libdns.record) (w : World)
  : returns (slice libdns.record) :=
  (* Validate Endpoint *)
  match ParseRequestURI (Endpoint p) with
  | Err err => (slice_nil, Some (ErrInvalidEndpoint (Endpoint p) err), w)
  | Ok uri =>
      let endpoint := JoinPath uri action in
      (* Loop through records *)
      doActions_loop p ctx endpoint action zone (elems records) (slice_of []) w
  end.

Definition GetRecords (p : Provider) (ctx : Ctx) (zone : string) (w : World)
  : returns (slice libdns.record) :=
  (slice_nil, Some ErrNoListing, w).

Definition SetRecords (p : Provider) (ctx : Ctx) (zone : string)
    (records : slice libdns.record) (w : World)
  : returns (slice libdns.record) :=
  doActions p ctx "present" zone records w.

Definition AppendRecords (p : Provider) (ctx : Ctx) (zone : string)
    (records : slice libdns.record) (w : World)
  : returns (slice libdns.record) :=
  SetRecords p ctx zone records w.

Definition DeleteRecords (p : Provider) (ctx : Ctx) (zone : string)
    (records : slice libdns.record) (w : World)
  : returns (slice libdns.record) :=
  doActions p ctx "cleanup" zone records w.

(** ** Vocabulary of the specification *)

(** The three batch operations of the provider. *)
Inductive BatchCall : Type := CallSet | CallAppend | CallDelete.

Definition call (c : BatchCall) :=
  match c with
  | CallSet => SetRecords
  | CallAppend => AppendRecords
  | CallDelete => DeleteRecords
  end.

(** The proxy action a batch operation stands for. *)
Definition action_of (c : BatchCall) : string :=
  match c with
  | CallSet | CallAppend => "present"
  | CallDelete => "cleanup"
  end.

(** The record reported for an input record that went through. *)
Definition completed_of (record : libdns.record) : libdns.record :=
  {| libdns.ID := libdns.ID record;
     libdns.Type' := "TXT";
     libdns.Name := libdns.Name record;
     libdns.Value := libdns.Value record;
     libdns.TTL := libdns.TTL record |}.

(** The JSON message that belongs to a record of a zone. *)
Definition message_of (zone : string) (record : libdns.record) : acmeProxy :=
  {| FQDN := AbsoluteName (libdns.Name record) zone;
     Value := libdns.Value record |}.

(** Per-record processing, one record after the other, whatever the outcome
    of each: the world it leaves behind. *)
Definition world_after (p : Provider) (ctx : Ctx) (endpoint : URL)
    (action zone : string) (records : list libdns.record) (w : World) : World :=
  foldl (fun w record => (doAction p ctx endpoint action zone record w).2)
        w records.

(** The error of processing record number [i] (from 0) of [records] in the
    world the records before it have left behind. *)
Definition error_at (p : Provider) (ctx : Ctx) (endpoint : URL)
    (action zone : string) (records : list libdns.record) (w : World)
    (i : nat) (record : libdns.record) : option error :=
  (doAction p ctx endpoint action zone record
     (world_after p ctx endpoint action zone (take i records) w)).1.2.

(** What a request built for [record] looks like. *)
Definition request_for (p : Provider) (endpoint : URL) (zone : string)
    (record : libdns.record) (req : Request) : Prop :=
  Method req = "POST"
  ∧ req_URL req = URL_String endpoint
  ∧ Header req !! "Accept" = Some ["application/json"]
  ∧ Header req !! "Content-Type" = Some ["application/json"]
  ∧ (is_Some (Header req !! "Authorization")
     ↔ Username (Provider_Credentials p) ≠ ""
       ∨ Password (Provider_Credentials p) ≠ "")
  ∧ (∀ v, Header req !! "Authorization" = Some v →
       v = ["Basic " +:+ base64 (Username (Provider_Credentials p) +:+ ":"
                                  +:+ Password (Provider_Credentials p))])
  ∧ json_Encode (message_of zone record) = Ok (req_Body req).

(** Between [w] and [w'] requests were sent to [url] only, all of them by
    POST. *)
Definition posts_only_to (url : string) (w w' : World) : Prop :=
  ∃ new : list Exchange,
    trace w' = trace w ++ new
    ∧ Forall (fun x => Method x.1 = "POST" ∧ req_URL x.1 = url) new.

(** The errors [doAction] returns before it has called the client ... *)
Definition fails_before_sending (e : error) : Prop :=
  match e with
  | ErrOnlyTXT | ErrMarshal _ | ErrCreateRequest _ => True
  | _ => False
  end.

(** ... and those it returns after the client was called. *)
Definition fails_after_sending (e : error) : Prop :=
  match e with
  | ErrSend _ | ErrStatusCode _ | ErrUnmarshal _
  | ErrUnexpectedFQDN _ | ErrUnexpectedValue _ => True
  | _ => False
  end.

(** The names of the headers of a request of provider [p]. *)
Definition header_names (p : Provider) : gset string :=
  if decide (Username (Provider_Credentials p) ≠ ""
             ∨ Password (Provider_Credentials p) ≠ "")
  then {[ "Accept"; "Content-Type"; "Authorization" ]}
  else {[ "Accept"; "Content-Type" ]}.


(** The provider [p] with [client] put into its [HTTPClient] field. *)
Definition with_client (p : Provider) (client : HTTPClient) : Provider :=
  {| Provider_Credentials := Provider_Credentials p;
     Endpoint := Endpoint p;
     Provider_HTTPClient := Some client |}.

End Methods.
End Provider.

(** ** A small environment to run the provider in *)

Module Sample.

(** Bodies are the messages themselves, URLs and library errors are strings,
    and the outside world is the number of requests the proxy still
    answers with status 200. *)
Definition env : GoEnv :=
  {| Ctx := unit;
     URL := string;
     LibError := string;
     Body := acmeProxy;
     Net := nat;
     AbsoluteName name zone := name +:+ "." +:+ zone;
     url_parse_request s :=
       if String.prefix "http" s then Ok s else Err "invalid URI for request";
     url_empty_error := "empty url";
     JoinPath u elem := u +:+ "/" +:+ elem;
     URL_String u := u;
     json_Encode msg := Ok msg;
     json_Decode body := Ok body;
     request_rejected _ _ _ := None;
     base64 s := s |}.

(** A proxy that echoes what it is sent while its budget lasts, and answers
    500 from then on. *)
Definition echo : @HTTPClient env :=
  @mkHTTPClient env (fun req (n : nat) =>
    match n with
    | O => (Ok (@mkResponse env 500 (req_Body req)), O)
    | S n => (Ok (@mkResponse env 200 (req_Body req)), n)
    end).

(** A proxy that answers 200 with a fixed body. *)
Definition fixed (body : acmeProxy) : @HTTPClient env :=
  @mkHTTPClient env (fun req (n : nat) =>
    (Ok (@mkResponse env 200 body), n)).


(** A client that never reaches the proxy. *)
Definition offline : @HTTPClient env :=
  @mkHTTPClient env (fun req (n : nat) => (Err "connection refused", n)).

Definition provider (endpoint : string) : @Provider env :=
  @mkProvider env {| Username := "admin"; Password := "" |} endpoint None.

Definition txt (name value : string) : libdns.record :=
  {| libdns.ID := "id-" +:+ name; libdns.Type' := "TXT"; libdns.Name := name;
     libdns.Value := value; libdns.TTL := 120 |}.

Definition start (budget : nat) : @World env :=
  @mkWorld env budget [].

Definition proxy : @Provider env := provider "http://proxy:9090".

Definition zone : string := "example.com".

Definition batch : slice libdns.record :=
  slice_of [txt "a" "1"; txt "b" "2"; txt "c" "3"].

Definition mx : libdns.record :=
  {| libdns.ID := "id-mail"; libdns.Type' := "MX"; libdns.Name := "mail";
     libdns.Value := "10 mx.example.com."; libdns.TTL := 3600 |}.

End Sample.

(** * Properties *)

Section Correctness.
Context {env : GoEnv}.
Variable DefaultClient : HTTPClient.

(** ** Processing one record *)

(** Case analysis along the early returns of [doAction]: one goal for each
    path through the function that agrees with the result in [H]. *)
Ltac doAction_paths H :=
  unfold doAction in H;
  repeat
    (first [ case_decide
           | match type of H with
             | context [match ?x with _ => _ end] =>
                 let E := fresh "E" in destruct x eqn:E
             end ]);
  simplify_eq.

Lemma doAction_success p ctx endpoint action zone record w out w' :
  doAction DefaultClient p ctx endpoint action zone record w = (out, None, w') →
  out = completed_of record ∧ libdns.Type' record = "TXT".
Proof.
  intros H. doAction_paths H.
  all: split; [done|]; by destruct (decide (libdns.Type' record = "TXT")).
Qed.

Lemma doAction_failure p ctx endpoint action zone record w out err w' :
  doAction DefaultClient p ctx endpoint action zone record w = (out, Some err, w') →
  out = libdns.zero.
Proof. intros H. by doAction_paths H. Qed.

(** The request [doAction] hands to the client, with and without
    credentials. *)
Lemma request_for_with_auth p ctx endpoint zone record body req :
  json_Encode (message_of zone record) = Ok body →
  NewRequestWithContext ctx MethodPost (URL_String endpoint) body = Ok req →
  Username (Provider_Credentials p) ≠ ""
  ∨ Password (Provider_Credentials p) ≠ "" →
  request_for p endpoint zone record
    (SetBasicAuth
       (Header_Set (Header_Set req "Accept" "application/json")
          "Content-Type" "application/json")
       (Username (Provider_Credentials p))
       (Password (Provider_Credentials p))).
Proof.
  unfold NewRequestWithContext. intros Hbody Hreq Hcred.
  destruct (request_rejected _ _ _); simplify_eq.
  unfold request_for, SetBasicAuth, Header_Set; simpl.
  repeat split; try done.
  intros v. rewrite lookup_insert_eq. congruence.
Qed.

Lemma request_for_without_auth p ctx endpoint zone record body req :
  json_Encode (message_of zone record) = Ok body →
  NewRequestWithContext ctx MethodPost (URL_String endpoint) body = Ok req →
  ¬ (Username (Provider_Credentials p) ≠ ""
     ∨ Password (Provider_Credentials p) ≠ "") →
  request_for p endpoint zone record
    (Header_Set (Header_Set req "Accept" "application/json")
       "Content-Type" "application/json").
Proof.
  unfold NewRequestWithContext. intros Hbody Hreq Hcred.
  destruct (request_rejected _ _ _); simplify_eq.
  unfold request_for, Header_Set; simpl.
  assert (Hnone : <["Content-Type" := ["application/json"]]>
                    (<["Accept" := ["application/json"]]>
                       (∅ : gmap string (list string)))
                  !! "Authorization" = None)
    by by rewrite !lookup_insert_ne, lookup_empty.
  repeat split; rewrite ?Hnone; done.
Qed.

Lemma doAction_world p ctx endpoint action zone record w out err w' :
  doAction DefaultClient p ctx endpoint action zone record w = (out, err, w') →
  w' = w
  ∨ ∃ req, request_for p endpoint zone record req
           ∧ w' = (call_Do (getClient DefaultClient p) req w).2.
Proof.
  intros H. doAction_paths H.
  all: try by left.
  all: right; eexists; (split; [|by rewrite E1]).
  all: first [ by eapply request_for_with_auth
             | by eapply request_for_without_auth ].
Qed.

(** A record adds at most one exchange to the trace, and then one whose
    request was built for that record. *)
Lemma doAction_trace p ctx endpoint action zone record w out err w' :
  doAction DefaultClient p ctx endpoint action zone record w = (out, err, w') →
  ∃ new : list Exchange,
    trace w' = trace w ++ new
    ∧ (length new ≤ 1)%nat
    ∧ Forall (fun x => request_for p endpoint zone record x.1) new.
Proof.
  intros H. apply doAction_world in H as [->|(req & Hreq & ->)].
  - exists []. rewrite app_nil_r. split_and!; [done | simpl; lia | constructor].
  - unfold call_Do. destruct (Do _ req (net w)) as [res n]. simpl.
    exists [(req, res)]. split_and!; [done | simpl; lia |].
    constructor; [done | constructor].
Qed.

(** ** The loop over a batch *)

Lemma doActions_loop_completed p ctx endpoint action zone records :
  ∀ acc w completed err w',
    doActions_loop DefaultClient p ctx endpoint action zone records acc w
      = (completed, err, w') →
    ∃ n : nat,
      (n ≤ length records)%nat
      ∧ elems completed = elems acc ++ (completed_of <$> take n records)
      ∧ (err = None → n = length records)
      ∧ (err ≠ None → (n < length records)%nat)
      ∧ (acc ≠ slice_nil → completed ≠ slice_nil)
      ∧ Forall (fun record => libdns.Type' record = "TXT") (take n records).
Proof.
  induction records as [|record records IH]; intros acc w completed err w' H;
    simpl in H.
  - simplify_eq. exists 0%nat. simpl. rewrite app_nil_r.
    split_and!; done.
  - destruct (doAction _ _ _ _ _ _ _ _) as [[out [e|]] w1] eqn:Hrec.
    + simplify_eq. exists 0%nat. simpl. rewrite app_nil_r.
      split_and!; first [done | lia].
    + apply doAction_success in Hrec as [-> Htxt].
      apply IH in H as (n & Hn & Hc & Hnil & Herr & Hacc & Hall).
      exists (S n). simpl in *. rewrite <- app_assoc in Hc.
      split_and!; [lia | done | | | by intros _; apply Hacc | by constructor].
      * intros He. by rewrite Hnil.
      * intros He. specialize (Herr He). lia.
Qed.

Lemma doActions_loop_trace p ctx endpoint action zone records :
  ∀ acc w completed err w',
    doActions_loop DefaultClient p ctx endpoint action zone records acc w
      = (completed, err, w') →
    ∃ new : list Exchange,
      trace w' = trace w ++ new
      ∧ (length new ≤ length records)%nat
      ∧ Forall (fun x => ∃ record, record ∈ records
                           ∧ request_for p endpoint zone record x.1) new.
Proof.
  induction records as [|record records IH]; intros acc w completed err w' H;
    simpl in H.
  - simplify_eq. exists []. rewrite app_nil_r. split_and!; done.
  - destruct (doAction _ _ _ _ _ _ _ _) as [[out e] w1] eqn:Hrec.
    apply doAction_trace in Hrec as (new1 & Ht1 & Hl1 & Hall1).
    assert (Hall1' : Forall (fun x => ∃ r, r ∈ record :: records
                               ∧ request_for p endpoint zone r x.1) new1).
    { eapply Forall_impl; [exact Hall1|]. intros x Hx. exists record.
      split; [left | done]. }
    destruct e as [e|].
    + simplify_eq. exists new1. split_and!; [done | simpl; lia | done].
    + apply IH in H as (new2 & Ht2 & Hl2 & Hall2).
      exists (new1 ++ new2). rewrite Ht2, Ht1, app_assoc.
      split_and!; [done | rewrite length_app; simpl; lia |].
      apply Forall_app. split; [done|].
      eapply Forall_impl; [exact Hall2|]. intros x (r & Hr & Hx).
      exists r. split; [by right | done].
Qed.

(** The loop leaves the world in the state that processing the records up
    to and including the first failing one leaves behind. *)
Lemma doActions_loop_first_failure p ctx endpoint action zone records :
  ∀ (sofar : list libdns.record) w (k : nat) record,
    records !! k = Some record →
    (∀ i ri, (i < k)%nat → records !! i = Some ri →
       error_at DefaultClient p ctx endpoint action zone records w i ri = None) →
    error_at DefaultClient p ctx endpoint action zone records w k record ≠ None →
    ∃ err,
      doActions_loop DefaultClient p ctx endpoint action zone records
        (slice_of sofar) w
      = (slice_of (sofar ++ (completed_of <$> take k records)),
         Some (ErrCouldNot action (libdns.Name record) err),
         world_after DefaultClient p ctx endpoint action zone
           (take (S k) records) w)
      ∧ error_at DefaultClient p ctx endpoint action zone records w k record
        = Some err.
Proof.
  induction records as [|r records IH]; intros acc w k record Hk Hbefore Hfail.
  - done.
  - destruct k as [|k]; simpl in Hk.
    + simplify_eq. unfold error_at in *. simpl in *.
      unfold world_after in *. simpl in *.
      destruct (doAction _ _ _ _ _ _ _ _) as [[out [e|]] w1] eqn:Hrec;
        simpl in *; [|done].
      exists e. by rewrite app_nil_r.
    + pose proof (Hbefore 0%nat r ltac:(lia) eq_refl) as H0.
      unfold error_at in H0; simpl in H0. unfold world_after in H0; simpl in H0.
      simpl. destruct (doAction _ _ _ _ _ _ r w) as [[out [e|]] w1] eqn:Hrec;
        simpl in H0; [done|].
      apply doAction_success in Hrec as Hout. destruct Hout as [-> _].
      destruct (IH (acc ++ [completed_of r]) w1 k record Hk)
        as (err & Hloop & Herr).
      * intros i ri Hi Hri.
        specialize (Hbefore (S i) ri ltac:(lia) Hri).
        unfold error_at, world_after in *. simpl in Hbefore.
        by rewrite Hrec in Hbefore.
      * unfold error_at, world_after in *. simpl in Hfail.
        by rewrite Hrec in Hfail.
      * exists err. unfold append. simpl. rewrite Hloop, <- app_assoc. simpl.
        unfold error_at, world_after in *. simpl. rewrite Hrec. simpl.
        split; [done|]. by rewrite Herr.
Qed.

Lemma world_after_trace p ctx endpoint action zone records :
  ∀ w, ∃ new : list Exchange,
    trace (world_after DefaultClient p ctx endpoint action zone records w)
      = trace w ++ new
    ∧ (length new ≤ length records)%nat.
Proof.
  unfold world_after.
  induction records as [|record records IH]; intros w; simpl.
  - exists []. by rewrite app_nil_r.
  - destruct (doAction _ _ _ _ _ _ record w) as [[out e] w1] eqn:Hrec.
    apply doAction_trace in Hrec as (new1 & Ht1 & Hl1 & _). simpl.
    destruct (IH w1) as (new2 & Ht2 & Hl2).
    exists (new1 ++ new2). rewrite Ht2, Ht1, app_assoc, length_app.
    split; [done | lia].
Qed.

(** Every completed record is what [doAction] returned, without error, for
    the input record at the same position. *)
Lemma doActions_loop_lookup p ctx endpoint action zone records :
  ∀ (sofar : list libdns.record) w completed err w',
    doActions_loop DefaultClient p ctx endpoint action zone records
      (slice_of sofar) w = (completed, err, w') →
    ∀ (i : nat) out,
      elems completed !! (length sofar + i)%nat = Some out →
      ∃ record,
        records !! i = Some record
        ∧ doAction DefaultClient p ctx endpoint action zone record
            (world_after DefaultClient p ctx endpoint action zone
               (take i records) w)
          = (out, None,
             world_after DefaultClient p ctx endpoint action zone
               (take (S i) records) w).
Proof.
  induction records as [|r records IH];
    intros sofar w completed err w' H i out Hi; simpl in H.
  - simplify_eq. simpl in Hi. apply lookup_lt_Some in Hi. lia.
  - destruct (doAction _ _ _ _ _ _ r w) as [[o [e|]] w1] eqn:Hrec.
    + simplify_eq. simpl in Hi. apply lookup_lt_Some in Hi. lia.
    + unfold append in H. simpl in H.
      destruct i as [|i].
      * apply doActions_loop_completed in H as (n & _ & Hc & _).
        simpl in Hc. rewrite Hc, <- app_assoc, Nat.add_0_r in Hi.
        rewrite lookup_app_r, Nat.sub_diag in Hi by lia. simpl in Hi.
        simplify_eq. exists r. split; [done|].
        unfold world_after. simpl. by rewrite Hrec.
      * destruct (IH (sofar ++ [o]) w1 completed err w' H i out)
          as (record & Hlook & Hdo).
        { rewrite length_app. simpl.
          by replace (length sofar + 1 + i)%nat
            with (length sofar + S i)%nat by lia. }
        exists record. split; [done|].
        unfold world_after in *. simpl. by rewrite Hrec.
Qed.

(** ** The batch operations *)

Lemma call_doActions (c : BatchCall) p ctx zone records w :
  call DefaultClient c p ctx zone records w
  = doActions DefaultClient p ctx (action_of c) zone records w.
Proof. by destruct c. Qed.

(** C1. In a batch given to SetRecords, AppendRecords or DeleteRecords, let
    record [k] (counted from 1) be the first whose processing fails.  Then
    the call returns exactly [k - 1] completed records, those of the records
    before it, together with a non-nil error, and the world it leaves is the
    one left by processing records 1 to [k] and nothing after them: at most
    [k] requests were sent. *)
Theorem C1_stops_at_first_failure (c : BatchCall) p ctx zone records w uri
    (k : nat) record :
  ParseRequestURI (Endpoint p) = Ok uri →
  (1 ≤ k)%nat →
  elems records !! (k - 1)%nat = Some record →
  (∀ (i : nat) ri, (i < k - 1)%nat → elems records !! i = Some ri →
     error_at DefaultClient p ctx (JoinPath uri (action_of c)) (action_of c)
       zone (elems records) w i ri = None) →
  error_at DefaultClient p ctx (JoinPath uri (action_of c)) (action_of c)
    zone (elems records) w (k - 1) record ≠ None →
  ∃ completed err (new : list Exchange),
    call DefaultClient c p ctx zone records w
    = (completed, Some err,
       world_after DefaultClient p ctx (JoinPath uri (action_of c))
         (action_of c) zone (take k (elems records)) w)
    ∧ len completed = (k - 1)%nat
    ∧ elems completed = completed_of <$> take (k - 1) (elems records)
    ∧ trace (world_after DefaultClient p ctx (JoinPath uri (action_of c))
               (action_of c) zone (take k (elems records)) w)
      = trace w ++ new
    ∧ (length new ≤ k)%nat.
Proof.
  intros Huri Hk Hrec Hbefore Hfail.
  rewrite call_doActions. unfold doActions. rewrite Huri.
  destruct (doActions_loop_first_failure p ctx (JoinPath uri (action_of c))
              (action_of c) zone (elems records) [] w (k - 1) record
              Hrec Hbefore Hfail) as (err & Hloop & _).
  replace (S (k - 1)) with k in Hloop by lia.
  destruct (world_after_trace p ctx (JoinPath uri (action_of c)) (action_of c)
              zone (take k (elems records)) w) as (new & Hnew & Hlen).
  eexists _, _, new. split_and!; [exact Hloop | | done | exact Hnew |].
  - unfold len. simpl. rewrite length_fmap, length_take.
    apply lookup_lt_Some in Hrec. lia.
  - rewrite length_take in Hlen. lia.
Qed.

(** C2. When processing a record got an answer from the client, with status
    200 and a body that decodes, it succeeds exactly if the decoded FQDN is
    [AbsoluteName(record.Name, zone)] and the decoded Value is the record's
    Value; a different FQDN, or else a different Value, is reported as an
    error. *)
Theorem C2_echo_decides_success p ctx endpoint action zone record w out err w'
    req resp respMsg :
  doAction DefaultClient p ctx endpoint action zone record w = (out, err, w') →
  trace w' = trace w ++ [(req, Ok resp)] →
  StatusCode resp = StatusOK →
  json_Decode (resp_Body resp) = Ok respMsg →
  (err = None
   ↔ FQDN respMsg = AbsoluteName (libdns.Name record) zone
     ∧ Value respMsg = libdns.Value record)
  ∧ (FQDN respMsg ≠ AbsoluteName (libdns.Name record) zone →
     err = Some (ErrUnexpectedFQDN (FQDN respMsg)))
  ∧ (FQDN respMsg = AbsoluteName (libdns.Name record) zone →
     Value respMsg ≠ libdns.Value record →
     err = Some (ErrUnexpectedValue (Value respMsg))).
Proof.
  intros H Htrace Hstatus Hdecode. doAction_paths H.
  (* paths that return before the request is sent *)
  all: try (apply (f_equal length) in Htrace; rewrite length_app in Htrace;
            simpl in Htrace; lia).
  (* paths through the client: the last exchange is the one of this call *)
  all: unfold call_Do in E1; destruct (Do _ _ (net w)) as [res n];
    simplify_eq; simpl in Htrace; apply app_inv_head in Htrace; simplify_eq.
  all: intuition congruence.
Qed.

(** C3. A record whose Type is not exactly TXT is refused with an error
    before anything is serialised or sent: the world, and with it the trace
    of requests, is unchanged, whatever the JSON encoder and the client
    would have done. *)
Theorem C3_only_txt_records p ctx endpoint action zone record w :
  libdns.Type' record ≠ "TXT" →
  doAction DefaultClient p ctx endpoint action zone record w
  = (libdns.zero, Some ErrOnlyTXT, w).
Proof. intros Htype. unfold doAction. by case_decide. Qed.

(** C4. A record of the completed list is the one [doAction] returned
    without error for the input record at the same position; its ID, Name,
    Value and TTL are those of that input record and its Type is TXT. *)
Theorem C4_completed_record_fields (c : BatchCall) p ctx zone records w
    completed err w' (i : nat) out :
  call DefaultClient c p ctx zone records w = (completed, err, w') →
  elems completed !! i = Some out →
  ∃ uri record,
    ParseRequestURI (Endpoint p) = Ok uri
    ∧ elems records !! i = Some record
    ∧ doAction DefaultClient p ctx (JoinPath uri (action_of c)) (action_of c)
        zone record
        (world_after DefaultClient p ctx (JoinPath uri (action_of c))
           (action_of c) zone (take i (elems records)) w)
      = (out, None,
         world_after DefaultClient p ctx (JoinPath uri (action_of c))
           (action_of c) zone (take (S i) (elems records)) w)
    ∧ libdns.ID out = libdns.ID record
    ∧ libdns.Name out = libdns.Name record
    ∧ libdns.Value out = libdns.Value record
    ∧ libdns.TTL out = libdns.TTL record
    ∧ libdns.Type' out = "TXT".
Proof.
  rewrite call_doActions. unfold doActions.
  destruct (ParseRequestURI (Endpoint p)) as [uri|e] eqn:Huri; intros H Hi.
  - destruct (doActions_loop_lookup _ _ _ _ _ _ [] _ _ _ _ H i out Hi)
      as (record & Hrec & Hdo).
    exists uri, record. split_and!; try done.
    all: by apply doAction_success in Hdo as [-> _].
  - by simplify_eq.
Qed.

(** C5. With an endpoint that [url.ParseRequestURI] rejects, the empty
    string among them, SetRecords, AppendRecords and DeleteRecords return
    the nil list, which has no element, and an error, and leave the world
    as it was: no request is sent. *)
Theorem C5_invalid_endpoint (c : BatchCall) p ctx zone records w :
  Endpoint p = "" ∨ (∃ e, ParseRequestURI (Endpoint p) = Err e) →
  ∃ e,
    call DefaultClient c p ctx zone records w
    = (slice_nil, Some (ErrInvalidEndpoint (Endpoint p) e), w)
    ∧ len (@slice_nil libdns.record) = 0%nat.
Proof.
  intros Hbad.
  assert (∃ e, ParseRequestURI (Endpoint p) = Err e) as [e He].
  { destruct Hbad as [Hempty|Hrej]; [|done].
    exists url_empty_error. unfold ParseRequestURI. by case_decide. }
  exists e. rewrite call_doActions. unfold doActions. by rewrite He.
Qed.

(** C6. GetRecords returns the nil list and an error for every context,
    zone and provider, and leaves the world as it was. *)
Theorem C6_GetRecords_unsupported p ctx zone w :
  GetRecords p ctx zone w = (slice_nil, Some ErrNoListing, w).
Proof. reflexivity. Qed.

Lemma doActions_trace p ctx action zone records w :
  ∃ new : list Exchange,
    trace (doActions DefaultClient p ctx action zone records w).2
      = trace w ++ new
    ∧ ∀ uri, ParseRequestURI (Endpoint p) = Ok uri →
        Forall (fun x => ∃ record, record ∈ elems records
                  ∧ request_for p (JoinPath uri action) zone record x.1) new.
Proof.
  unfold doActions.
  destruct (ParseRequestURI (Endpoint p)) as [uri|e]; simpl.
  - destruct (doActions_loop _ _ _ _ _ _ _ _ _) as [[completed err] w'] eqn:H.
    apply doActions_loop_trace in H as (new & Hnew & _ & Hall).
    exists new. split; [done|]. by intros ? [= <-].
  - exists []. rewrite app_nil_r. split; [done|]. intros uri. discriminate.
Qed.

Lemma doActions_posts_only_to p ctx action zone records w uri :
  ParseRequestURI (Endpoint p) = Ok uri →
  posts_only_to (URL_String (JoinPath uri action)) w
    (doActions DefaultClient p ctx action zone records w).2.
Proof.
  intros Huri.
  destruct (doActions_trace p ctx action zone records w) as (new & Hnew & Hall).
  exists new. split; [done|].
  eapply Forall_impl; [exact (Hall uri Huri)|].
  intros x (record & _ & Hm & Hu & _). done.
Qed.

(** C7. AppendRecords returns what SetRecords returns on the same inputs.
    Both run the batch with the action present, DeleteRecords with the
    action cleanup, and every request goes by POST to the configured
    endpoint with that action joined to its path. *)
Theorem C7_present_and_cleanup p ctx zone records w :
  AppendRecords DefaultClient p ctx zone records w
  = SetRecords DefaultClient p ctx zone records w
  ∧ SetRecords DefaultClient p ctx zone records w
    = doActions DefaultClient p ctx "present" zone records w
  ∧ DeleteRecords DefaultClient p ctx zone records w
    = doActions DefaultClient p ctx "cleanup" zone records w
  ∧ ∀ uri, ParseRequestURI (Endpoint p) = Ok uri →
      posts_only_to (URL_String (JoinPath uri "present")) w
        (SetRecords DefaultClient p ctx zone records w).2
      ∧ posts_only_to (URL_String (JoinPath uri "present")) w
          (AppendRecords DefaultClient p ctx zone records w).2
      ∧ posts_only_to (URL_String (JoinPath uri "cleanup")) w
          (DeleteRecords DefaultClient p ctx zone records w).2.
Proof.
  split_and!; try reflexivity.
  intros uri Huri. unfold AppendRecords, SetRecords, DeleteRecords.
  split_and!; by apply doActions_posts_only_to.
Qed.

(** C8. Every request a batch call hands to the client carries an
    Authorization header exactly if Username or Password is not empty, and
    then the Basic credentials of both; it carries Accept and Content-Type
    application/json; and its body is the JSON encoding of the message with
    FQDN [AbsoluteName(record.Name, zone)] and Value [record.Value] for a
    record of the batch. *)
Theorem C8_outbound_requests (c : BatchCall) p ctx zone records w
    completed err w' :
  call DefaultClient c p ctx zone records w = (completed, err, w') →
  ∃ new : list Exchange,
    trace w' = trace w ++ new
    ∧ Forall (fun x : Exchange =>
        (is_Some (Header x.1 !! "Authorization")
         ↔ Username (Provider_Credentials p) ≠ ""
           ∨ Password (Provider_Credentials p) ≠ "")
        ∧ (∀ v, Header x.1 !! "Authorization" = Some v →
             v = ["Basic " +:+ base64 (Username (Provider_Credentials p)
                                       +:+ ":" +:+
                                       Password (Provider_Credentials p))])
        ∧ Header x.1 !! "Accept" = Some ["application/json"]
        ∧ Header x.1 !! "Content-Type" = Some ["application/json"]
        ∧ ∃ record,
            record ∈ elems records
            ∧ json_Encode {| FQDN := AbsoluteName (libdns.Name record) zone;
                             Value := libdns.Value record |}
              = Ok (req_Body x.1)) new.
Proof.
  rewrite call_doActions. intros H.
  destruct (doActions_trace p ctx (action_of c) zone records w)
    as (new & Hnew & Hall).
  rewrite H in Hnew. simpl in Hnew. exists new. split; [done|].
  unfold doActions in H.
  destruct (ParseRequestURI (Endpoint p)) as [uri|e] eqn:Huri.
  - eapply Forall_impl; [exact (Hall uri eq_refl)|].
    intros x (record & Hin & _ & _ & Hacc & Hct & Hauth & Hval & Hbody).
    split_and!; try done. by exists record.
  - simplify_eq. apply (f_equal length) in Hnew.
    rewrite length_app in Hnew. destruct new; [constructor | simpl in Hnew; lia].
Qed.

(** C9. For an empty batch, nil or not, and an endpoint that parses,
    SetRecords, AppendRecords and DeleteRecords return an empty list that
    is not nil and no error, and leave the world as it was. *)
Theorem C9_empty_batch (c : BatchCall) p ctx zone records w uri :
  ParseRequestURI (Endpoint p) = Ok uri →
  elems records = [] →
  call DefaultClient c p ctx zone records w = (slice_of [], None, w)
  ∧ @slice_of libdns.record [] ≠ slice_nil.
Proof.
  intros Huri Hempty. rewrite call_doActions. unfold doActions.
  by rewrite Huri, Hempty.
Qed.

(** C10. Whatever a batch call returns, the completed list is the image, in
    input order, of a prefix of the input records, and without an error the
    prefix is the whole input. *)
Theorem C10_completed_is_prefix (c : BatchCall) p ctx zone records w
    completed err w' :
  call DefaultClient c p ctx zone records w = (completed, err, w') →
  elems completed = completed_of <$> take (len completed) (elems records)
  ∧ (len completed ≤ length (elems records))%nat
  ∧ (err = None → len completed = length (elems records)).
Proof.
  rewrite call_doActions. unfold doActions.
  destruct (ParseRequestURI (Endpoint p)) as [uri|e]; intros H.
  - apply doActions_loop_completed in H as (n & Hn & Hc & Hnil & _).
    simpl in Hc.
    assert (len completed = n) as ->.
    { unfold len. rewrite Hc, length_fmap, length_take. lia. }
    done.
  - simplify_eq. unfold len. simpl. split_and!; [done | lia | done].
Qed.

(** ** Further properties of one record *)

Lemma trace_not_extended (l : list Exchange) x : l ≠ l ++ [x].
Proof.
  intros H. apply (f_equal length) in H. rewrite length_app in H.
  simpl in H. lia.
Qed.

Lemma header_names_with_auth p req user pass :
  Header req = ∅ →
  Username (Provider_Credentials p) ≠ ""
  ∨ Password (Provider_Credentials p) ≠ "" →
  dom (Header (SetBasicAuth
                 (Header_Set (Header_Set req "Accept" "application/json")
                    "Content-Type" "application/json") user pass))
  = header_names p.
Proof.
  intros Hempty Hcred. unfold header_names. case_decide; [|done].
  simpl. rewrite Hempty, !dom_insert_L, dom_empty_L. set_solver.
Qed.

Lemma header_names_without_auth p req :
  Header req = ∅ →
  ¬ (Username (Provider_Credentials p) ≠ ""
     ∨ Password (Provider_Credentials p) ≠ "") →
  dom (Header (Header_Set (Header_Set req "Accept" "application/json")
                 "Content-Type" "application/json"))
  = header_names p.
Proof.
  intros Hempty Hcred. unfold header_names. case_decide; [done|].
  simpl. rewrite Hempty, !dom_insert_L, dom_empty_L. set_solver.
Qed.

Lemma NewRequestWithContext_Ok ctx method url body req :
  NewRequestWithContext ctx method url body = Ok req →
  req_ctx req = ctx ∧ Header req = ∅.
Proof.
  unfold NewRequestWithContext. destruct (request_rejected _ _ _); [done|].
  by intros [= <-].
Qed.

(** What is known of a record whose processing added an exchange. *)
Lemma doAction_sent_request p ctx endpoint action zone record w out err w'
    req res :
  doAction DefaultClient p ctx endpoint action zone record w = (out, err, w') →
  trace w' = trace w ++ [(req, res)] →
  libdns.Type' record = "TXT"
  ∧ request_for p endpoint zone record req
  ∧ req_ctx req = ctx
  ∧ dom (Header req) = header_names p
  ∧ Do (getClient DefaultClient p) req (net w) = (res, net w').
Proof.
  intros H Htrace. doAction_paths H.
  all: try by apply trace_not_extended in Htrace.
  all: unfold call_Do in E1;
    destruct (Do _ _ (net w)) as [res' n] eqn:HDo;
    simplify_eq; simpl in Htrace; apply app_inv_head in Htrace; simplify_eq.
  all: apply NewRequestWithContext_Ok in E0 as Hreq; destruct Hreq as [Hctx Hhdr].
  all: split_and!;
    [ by destruct (decide (libdns.Type' record = "TXT"))
    | first [ by eapply request_for_with_auth
            | by eapply request_for_without_auth ]
    | done
    | first [ by apply header_names_with_auth
            | by apply header_names_without_auth ]
    | done ].
Qed.

(** A record only goes through on an answer with status 200 that decodes to
    the message sent. *)
Lemma doAction_acknowledged p ctx endpoint action zone record w out w' :
  doAction DefaultClient p ctx endpoint action zone record w = (out, None, w') →
  ∃ req resp,
    trace w' = trace w ++ [(req, Ok resp)]
    ∧ StatusCode resp = StatusOK
    ∧ json_Decode (resp_Body resp) = Ok (message_of zone record).
Proof.
  intros H. doAction_paths H.
  all: unfold call_Do in E1;
    destruct (Do _ _ (net w)) as [res' n] eqn:HDo; simplify_eq; simpl.
  all: eexists _, _; split_and!; [done | | ].
  all: try by destruct (decide (StatusCode a1 = StatusOK)).
  all: rewrite E3; f_equal; destruct a2 as [fqdn value]; simpl in *.
  all: unfold message_of; f_equal.
  all: first [ by destruct (decide (fqdn = AbsoluteName (libdns.Name record) zone))
             | by destruct (decide (value = libdns.Value record)) ].
Qed.

(** X1. The error of a record tells whether the client was called.  After a
    wrong type, an encoding error or a refused request nothing was sent and
    the world is as before; after a transport, status, decoding or echo
    error exactly one exchange was made.  Either way the record returned
    beside the error is the zero record, and the error is never one of the
    batch level. *)
Theorem X1_error_tells_whether_sent p ctx endpoint action zone record w
    out e w' :
  doAction DefaultClient p ctx endpoint action zone record w
    = (out, Some e, w') →
  out = libdns.zero
  ∧ ((fails_before_sending e ∧ w' = w)
     ∨ (fails_after_sending e
        ∧ ∃ req res,
            trace w' = trace w ++ [(req, res)]
            ∧ Do (getClient DefaultClient p) req (net w) = (res, net w'))).
Proof.
  intros H. doAction_paths H.
  all: split; [done|].
  all: try by left.
  all: right; split; [done|].
  all: unfold call_Do in E1;
    destruct (Do _ _ (net w)) as [res' n] eqn:HDo; simplify_eq; simpl.
  all: by eexists _, _.
Qed.

(** X2. What the client returned decides the error before the echo is
    looked at: a transport error is reported as such; an answer with a
    status other than 200 is reported with its status code whatever its
    body holds; and a body with status 200 that does not decode is
    reported as a decoding error. *)
Theorem X2_answer_decides_error p ctx endpoint action zone record w out err w'
    req res :
  doAction DefaultClient p ctx endpoint action zone record w = (out, err, w') →
  trace w' = trace w ++ [(req, res)] →
  match res with
  | Err e => err = Some (ErrSend e)
  | Ok resp =>
      if decide (StatusCode resp = StatusOK) then
        ∀ e, json_Decode (resp_Body resp) = Err e → err = Some (ErrUnmarshal e)
      else err = Some (ErrStatusCode (StatusCode resp))
  end.
Proof.
  intros H Htrace. doAction_paths H.
  all: try by apply trace_not_extended in Htrace.
  all: unfold call_Do in E1;
    destruct (Do _ _ (net w)) as [res' n] eqn:HDo;
    simplify_eq; simpl in Htrace; apply app_inv_head in Htrace; simplify_eq.
  all: try done.
  all: case_decide; try done; intros; congruence.
Qed.

(** ** Further properties of the loop *)

(** The exchanges of a batch, one by one: exchange [i] belongs to record
    [i], and the exchanges of the completed records were answered with the
    echo. *)
Lemma doActions_loop_exchanges p ctx endpoint action zone records :
  ∀ acc w completed err w',
    doActions_loop DefaultClient p ctx endpoint action zone records acc w
      = (completed, err, w') →
    ∃ (n : nat) (new : list Exchange),
      elems completed = elems acc ++ (completed_of <$> take n records)
      ∧ (n ≤ length records)%nat
      ∧ trace w' = trace w ++ new
      ∧ (n ≤ length new ≤ S n)%nat
      ∧ (err = None → length new = length records)
      ∧ (∀ (i : nat) x, new !! i = Some x →
           ∃ r, records !! i = Some r
                ∧ libdns.Type' r = "TXT"
                ∧ request_for p endpoint zone r x.1
                ∧ req_ctx x.1 = ctx
                ∧ dom (Header x.1) = header_names p)
      ∧ (∀ i : nat, (i < n)%nat →
           ∃ r req resp,
             records !! i = Some r
             ∧ new !! i = Some (req, Ok resp)
             ∧ StatusCode resp = StatusOK
             ∧ json_Decode (resp_Body resp) = Ok (message_of zone r)).
Proof.
  induction records as [|r records IH]; intros acc w completed err w' H;
    simpl in H.
  - simplify_eq. exists 0%nat, []. simpl. rewrite !app_nil_r.
    split_and!; try done; try lia.
  - destruct (doAction _ _ _ _ _ _ r w) as [[o [e|]] w1] eqn:Hrec.
    + simplify_eq.
      destruct (doAction_trace _ _ _ _ _ _ _ _ _ _ Hrec)
        as (new1 & Ht1 & Hl1 & _).
      exists 0%nat, new1. simpl. rewrite app_nil_r.
      split_and!; try done; try lia.
      * intros i x Hx. destruct new1 as [|y [|z new1]]; simpl in Hl1; [done| |lia].
        destruct i as [|i]; [|done]. simpl in Hx. simplify_eq.
        destruct x as [req res].
        destruct (doAction_sent_request _ _ _ _ _ _ _ _ _ _ _ _ Hrec Ht1)
          as (Htxt & Hfor & Hctx & Hdom & _).
        by exists r.
    + destruct (doAction_acknowledged _ _ _ _ _ _ _ _ _ Hrec)
        as (req & resp & Ht1 & Hstatus & Hdecode).
      destruct (doAction_sent_request _ _ _ _ _ _ _ _ _ _ _ _ Hrec Ht1)
        as (Htxt & Hfor & Hctx & Hdom & _).
      apply doAction_success in Hrec as [-> _].
      apply IH in H
        as (n & new & Hc & Hn & Ht & Hlen & Hall & Hsent & Hack).
      exists (S n), ((req, Ok resp) :: new). simpl in *.
      rewrite <- app_assoc in Hc. rewrite Ht, Ht1, <- app_assoc.
      split_and!; try done; try lia.
      * intros He. by rewrite Hall.
      * intros [|i] x Hx; simpl in Hx.
        -- simplify_eq. by exists r.
        -- by apply Hsent.
      * intros [|i] Hi; simpl.
        -- by exists r, req, resp.
        -- apply Hack. lia.
Qed.

Lemma lookup_app_length {A} (l1 l2 : list A) (i : nat) :
  (l1 ++ l2) !! (length l1 + i)%nat = l2 !! i.
Proof. rewrite lookup_app_r by lia. f_equal. lia. Qed.

Lemma call_exchanges (c : BatchCall) p ctx zone records w completed err w' :
  call DefaultClient c p ctx zone records w = (completed, err, w') →
  ∃ new : list Exchange,
    trace w' = trace w ++ new
    ∧ (len completed ≤ length new ≤ S (len completed))%nat
    ∧ (err = None → length new = length (elems records))
    ∧ (∀ (i : nat) x, new !! i = Some x →
         ∃ r, elems records !! i = Some r
              ∧ libdns.Type' r = "TXT"
              ∧ json_Encode (message_of zone r) = Ok (req_Body x.1)
              ∧ req_ctx x.1 = ctx
              ∧ dom (Header x.1) = header_names p)
    ∧ (∀ i : nat, (i < len completed)%nat →
         ∃ r req resp,
           elems records !! i = Some r
           ∧ new !! i = Some (req, Ok resp)
           ∧ StatusCode resp = StatusOK
           ∧ json_Decode (resp_Body resp) = Ok (message_of zone r)).
Proof.
  rewrite call_doActions. unfold doActions.
  destruct (ParseRequestURI (Endpoint p)) as [uri|e]; intros H.
  - apply doActions_loop_exchanges in H
      as (n & new & Hc & Hn & Ht & Hlen & Hall & Hsent & Hack).
    simpl in Hc.
    assert (len completed = n) as ->.
    { unfold len. rewrite Hc, length_fmap, length_take. lia. }
    exists new. split_and!; try done; try lia.
    intros i x Hx.
    destruct (Hsent i x Hx) as (r & Hr & Htxt & Hfor & Hctx & Hdom).
    exists r. split_and!; try done. apply Hfor.
  - simplify_eq. exists []. rewrite app_nil_r. unfold len. simpl.
    split_and!; try done; lia.
Qed.

(** X3. The requests of a batch call go out in input order, one for each
    record from the first on without gaps: request number [i] was built for
    record number [i], which is a TXT record, and its body is the encoding
    of that record's message. *)
Theorem X3_requests_in_input_order (c : BatchCall) p ctx zone records w
    completed err w' :
  call DefaultClient c p ctx zone records w = (completed, err, w') →
  ∃ new : list Exchange,
    trace w' = trace w ++ new
    ∧ ∀ (i : nat) x, new !! i = Some x →
        ∃ r, elems records !! i = Some r
             ∧ libdns.Type' r = "TXT"
             ∧ json_Encode {| FQDN := AbsoluteName (libdns.Name r) zone;
                              Value := libdns.Value r |}
               = Ok (req_Body x.1).
Proof.
  intros H. apply call_exchanges in H as (new & Ht & _ & _ & Hsent & _).
  exists new. split; [done|]. intros i x Hx.
  destruct (Hsent i x Hx) as (r & Hr & Htxt & Hbody & _). by exists r.
Qed.

(** X4. Every request of a batch call carries the context the caller passed
    in, and no header besides Accept and Content-Type, and Authorization
    when a username or password is configured. *)
Theorem X4_context_and_header_names (c : BatchCall) p ctx zone records w
    completed err w' :
  call DefaultClient c p ctx zone records w = (completed, err, w') →
  ∃ new : list Exchange,
    trace w' = trace w ++ new
    ∧ Forall (fun x : Exchange =>
        req_ctx x.1 = ctx
        ∧ dom (Header x.1)
          = if decide (Username (Provider_Credentials p) ≠ ""
                       ∨ Password (Provider_Credentials p) ≠ "")
            then {[ "Accept"; "Content-Type"; "Authorization" ]}
            else {[ "Accept"; "Content-Type" ]}) new.
Proof.
  intros H. apply call_exchanges in H as (new & Ht & _ & _ & Hsent & _).
  exists new. split; [done|]. apply Forall_lookup. intros i x Hx.
  destruct (Hsent i x Hx) as (r & _ & _ & _ & Hctx & Hdom). done.
Qed.

(** X5. A batch call makes one exchange for each completed record and at
    most one more, the one of the record that failed; a call that returns
    no error has made exactly one exchange per input record. *)
Theorem X5_one_exchange_per_record (c : BatchCall) p ctx zone records w
    completed err w' :
  call DefaultClient c p ctx zone records w = (completed, err, w') →
  ∃ new : list Exchange,
    trace w' = trace w ++ new
    ∧ (len completed ≤ length new ≤ len completed + 1)%nat
    ∧ (err = None → length new = length (elems records)).
Proof.
  intros H. apply call_exchanges in H as (new & Ht & Hlen & Hall & _).
  exists new. split_and!; first [done | lia].
Qed.

(** X6. No record is reported completed without the proxy's confirmation:
    for each completed record, the exchange at its position was answered
    with status 200 and a body that decodes to exactly the message of that
    input record. *)
Theorem X6_completed_were_confirmed (c : BatchCall) p ctx zone records w
    completed err w' (i : nat) :
  call DefaultClient c p ctx zone records w = (completed, err, w') →
  (i < len completed)%nat →
  ∃ r req resp,
    elems records !! i = Some r
    ∧ trace w' !! (length (trace w) + i)%nat = Some (req, Ok resp)
    ∧ StatusCode resp = StatusOK
    ∧ json_Decode (resp_Body resp)
      = Ok {| FQDN := AbsoluteName (libdns.Name r) zone;
              Value := libdns.Value r |}.
Proof.
  intros H Hi. apply call_exchanges in H as (new & Ht & _ & _ & _ & Hack).
  destruct (Hack i Hi) as (r & req & resp & Hr & Hx & Hstatus & Hdecode).
  exists r, req, resp. split_and!; try done.
  rewrite Ht. exact (eq_trans (lookup_app_length _ _ _) Hx).
Qed.




(** A batch that ends with an error ends at the first record whose
    processing fails, and wraps that record's error with the action and the
    record's name. *)
Lemma doActions_loop_error p ctx endpoint action zone records :
  ∀ acc w completed e w',
    doActions_loop DefaultClient p ctx endpoint action zone records acc w
      = (completed, Some e, w') →
    ∃ (k : nat) r cause,
      elems completed = elems acc ++ (completed_of <$> take k records)
      ∧ records !! k = Some r
      ∧ e = ErrCouldNot action (libdns.Name r) cause
      ∧ error_at DefaultClient p ctx endpoint action zone records w k r
        = Some cause.
Proof.
  induction records as [|r records IH]; intros acc w completed e w' H;
    simpl in H; [done|].
  destruct (doAction _ _ _ _ _ _ r w) as [[o [cause|]] w1] eqn:Hrec.
  - simplify_eq. exists 0%nat, r, cause. simpl. rewrite app_nil_r.
    split_and!; try done.
    unfold error_at, world_after. simpl. by rewrite Hrec.
  - apply doAction_success in Hrec as Hout. destruct Hout as [-> _].
    apply IH in H as (k & r' & cause & Hc & Hr' & -> & Hcause).
    exists (S k), r', cause. simpl in *. rewrite <- app_assoc in Hc.
    split_and!; try done.
    unfold error_at, world_after in *. simpl. by rewrite Hrec.
Qed.

(** X8. When a batch call with an endpoint that parses returns an error,
    the record at position [len completed] of the input is the one that
    failed: the error carries the action and that record's name, and wraps
    the error of processing that record after the records before it. *)
Theorem X8_error_names_failing_record (c : BatchCall) p ctx zone records w
    uri completed e w' :
  ParseRequestURI (Endpoint p) = Ok uri →
  call DefaultClient c p ctx zone records w = (completed, Some e, w') →
  ∃ r cause,
    elems records !! len completed = Some r
    ∧ e = ErrCouldNot (action_of c) (libdns.Name r) cause
    ∧ error_at DefaultClient p ctx (JoinPath uri (action_of c)) (action_of c)
        zone (elems records) w (len completed) r
      = Some cause.
Proof.
  rewrite call_doActions. unfold doActions. intros -> H.
  apply doActions_loop_error in H as (k & r & cause & Hc & Hr & -> & Hcause).
  simpl in Hc.
  assert (len completed = k) as ->.
  { unfold len. rewrite Hc, length_fmap, length_take.
    apply lookup_lt_Some in Hr. lia. }
  by exists r, cause.
Qed.

(** X9. The returned list is nil exactly when the endpoint does not parse,
    and exactly when the error is the invalid-endpoint error: a failing
    record, even the first one, gives a list that is not nil. *)
Theorem X9_nil_list_means_invalid_endpoint (c : BatchCall) p ctx zone records
    w completed err w' :
  call DefaultClient c p ctx zone records w = (completed, err, w') →
  (completed = slice_nil ↔ ∃ e, ParseRequestURI (Endpoint p) = Err e)
  ∧ (completed = slice_nil
     ↔ ∃ e, err = Some (ErrInvalidEndpoint (Endpoint p) e)).
Proof.
  rewrite call_doActions. unfold doActions.
  destruct (ParseRequestURI (Endpoint p)) as [uri|e] eqn:Huri; intros H.
  - assert (completed ≠ slice_nil) as Hnot.
    { apply doActions_loop_completed in H as (n & _ & _ & _ & _ & Hacc & _).
      by apply Hacc. }
    split; (split; [done|]).
    + by intros [e He].
    + intros [e ->].
      by apply doActions_loop_error in H as (k & r & cause & _ & _ & He & _).
  - simplify_eq. split; (split; [|done]); intros _; by exists e.
Qed.

(** ** Splitting a batch *)

(** The completed records found at the start of the loop are only carried
    along. *)
Lemma doActions_loop_acc p ctx endpoint action zone records :
  ∀ (sofar : list libdns.record) w,
    doActions_loop DefaultClient p ctx endpoint action zone records
      (slice_of sofar) w
    = let '(completed, err, w') :=
        doActions_loop DefaultClient p ctx endpoint action zone records
          (slice_of []) w in
      (slice_of (sofar ++ elems completed), err, w').
Proof.
  induction records as [|r records IH]; intros sofar w; simpl.
  - by rewrite app_nil_r.
  - destruct (doAction _ _ _ _ _ _ r w) as [[o [e|]] w1].
    + by rewrite app_nil_r.
    + unfold append. simpl. rewrite (IH (sofar ++ [o])), (IH [o]).
      destruct (doActions_loop _ _ _ _ _ _ records (slice_of []) w1)
        as [[completed err] w'].
      simpl. by rewrite <- app_assoc.
Qed.

Lemma doActions_loop_app p ctx endpoint action zone xs ys :
  ∀ acc w,
    doActions_loop DefaultClient p ctx endpoint action zone (xs ++ ys) acc w
    = match doActions_loop DefaultClient p ctx endpoint action zone xs acc w
      with
      | (cx, Some e, w1) => (cx, Some e, w1)
      | (cx, None, w1) =>
          doActions_loop DefaultClient p ctx endpoint action zone ys cx w1
      end.
Proof.
  induction xs as [|r xs IH]; intros acc w; simpl; [done|].
  destruct (doAction _ _ _ _ _ _ r w) as [[o [e|]] w1]; [done|].
  apply IH.
Qed.

(** X10. A batch call on two batches in a row is the call on the first
    followed, if that returned no error, by the call on the second in the
    world the first has left, with the completed lists joined; if the first
    returned an error the second batch plays no part. *)
Theorem X10_batches_compose (c : BatchCall) p ctx zone
    (xs ys : list libdns.record) w :
  call DefaultClient c p ctx zone (slice_of (xs ++ ys)) w
  = match call DefaultClient c p ctx zone (slice_of xs) w with
    | (cx, Some e, w1) => (cx, Some e, w1)
    | (cx, None, w1) =>
        match call DefaultClient c p ctx zone (slice_of ys) w1 with
        | (cy, err, w2) => (slice_of (elems cx ++ elems cy), err, w2)
        end
    end.
Proof.
  rewrite !call_doActions. unfold doActions.
  destruct (ParseRequestURI (Endpoint p)) as [uri|e] eqn:Huri; [|done].
  simpl. rewrite doActions_loop_app.
  destruct (doActions_loop _ _ _ _ _ _ xs (slice_of []) w)
    as [[cx [e|]] w1] eqn:Hxs; [done|].
  rewrite call_doActions. unfold doActions. rewrite Huri.
  assert (cx = slice_of (elems cx)) as Hcx.
  { apply doActions_loop_completed in Hxs as (n & _ & _ & _ & _ & Hacc & _).
    destruct cx; [by destruct Hacc|done]. }
  rewrite Hcx at 1. simpl. apply doActions_loop_acc.
Qed.

(** ** The client *)

Lemma doActions_loop_client (other : HTTPClient) p p' ctx endpoint action zone
    records :
  Provider_Credentials p = Provider_Credentials p' →
  getClient DefaultClient p = getClient other p' →
  ∀ acc w,
    doActions_loop DefaultClient p ctx endpoint action zone records acc w
    = doActions_loop other p' ctx endpoint action zone records acc w.
Proof.
  intros Hcred Hclient.
  assert (∀ r w, doAction DefaultClient p ctx endpoint action zone r w
                 = doAction other p' ctx endpoint action zone r w) as Hrec.
  { intros r w. unfold doAction. by rewrite Hcred, Hclient. }
  induction records as [|r records IH]; intros acc w; simpl; [done|].
  rewrite Hrec. destruct (doAction _ _ _ _ _ _ r w) as [[o [e|]] w1]; [done|].
  apply IH.
Qed.

(** X11. The default client is used only by a provider without a client of
    its own.  A provider with a client gives the same results whatever the
    default client is, and a provider without one behaves as the same
    provider with the default client put into its HTTPClient field. *)
Theorem X11_client_selection (c : BatchCall) p ctx zone records w
    (other : HTTPClient) :
  (is_Some (Provider_HTTPClient p) →
   call DefaultClient c p ctx zone records w
   = call other c p ctx zone records w)
  ∧ (Provider_HTTPClient p = None →
     call DefaultClient c p ctx zone records w
     = call other c (with_client p DefaultClient) ctx zone records w).
Proof.
  assert (∀ D q, call D c q ctx zone records w
                 = doActions D q ctx (action_of c) zone records w) as Hcall
    by by destruct c.
  rewrite !Hcall. unfold doActions. split.
  - intros [client Hclient]. destruct (ParseRequestURI (Endpoint p)); [|done].
    apply doActions_loop_client; [done|].
    unfold getClient. by rewrite Hclient.
  - intros Hnone. simpl. destruct (ParseRequestURI (Endpoint p)); [|done].
    apply doActions_loop_client; [done|].
    unfold getClient. simpl. by rewrite Hnone.
Qed.

(** ** A proxy that echoes *)




End Correctness.

(** ** The theorems at work in the sample environment *)

(** Three records, a proxy that answers one request: the second record is
    the first to fail. *)
Lemma C1_witness :
  ∃ completed err (new : list Exchange),
    call Sample.echo CallSet Sample.proxy tt Sample.zone Sample.batch
      (Sample.start 1)
    = (completed, Some err,
       world_after Sample.echo Sample.proxy tt
         (@JoinPath Sample.env "http://proxy:9090" "present") "present"
         Sample.zone (take 2 (elems Sample.batch)) (Sample.start 1))
    ∧ len completed = 1%nat
    ∧ elems completed = completed_of <$> take 1 (elems Sample.batch)
    ∧ trace (world_after Sample.echo Sample.proxy tt
               (@JoinPath Sample.env "http://proxy:9090" "present") "present"
               Sample.zone (take 2 (elems Sample.batch)) (Sample.start 1))
      = trace (Sample.start 1) ++ new
    ∧ (length new ≤ 2)%nat.
Proof.
  apply (@C1_stops_at_first_failure Sample.env Sample.echo CallSet
           Sample.proxy tt Sample.zone Sample.batch (Sample.start 1)
           "http://proxy:9090" 2 (Sample.txt "b" "2")).
  - reflexivity.
  - lia.
  - reflexivity.
  - intros i ri Hi Hri. destruct i as [|i]; [|lia].
    simpl in Hri. injection Hri as <-. reflexivity.
  - vm_compute. discriminate.
Defined.

(** A proxy that answers with another value than it was sent. *)
Lemma C2_witness :
  ∃ out err w' req resp respMsg,
    doAction (Sample.fixed {| FQDN := "a.example.com"; Value := "2" |})
      Sample.proxy tt (@JoinPath Sample.env "http://proxy:9090" "present")
      "present" Sample.zone (Sample.txt "a" "1") (Sample.start 1)
    = (out, err, w')
    ∧ trace w' = trace (Sample.start 1) ++ [(req, Ok resp)]
    ∧ StatusCode resp = StatusOK
    ∧ @json_Decode Sample.env (resp_Body resp) = Ok respMsg
    ∧ err = Some (ErrUnexpectedValue "2")
    ∧ (err = None
       ↔ FQDN respMsg = @AbsoluteName Sample.env "a" Sample.zone
         ∧ Value respMsg = "1").
Proof.
  eexists _, _, _, _, _, _.
  split_and!; [reflexivity | reflexivity | reflexivity | reflexivity
              | reflexivity |].
  apply (@C2_echo_decides_success Sample.env
           (Sample.fixed {| FQDN := "a.example.com"; Value := "2" |})
           Sample.proxy tt (@JoinPath Sample.env "http://proxy:9090" "present")
           "present" Sample.zone (Sample.txt "a" "1") (Sample.start 1)
           _ _ _ _ _ _ eq_refl eq_refl eq_refl eq_refl).
Defined.

Lemma C3_witness :
  doAction Sample.echo Sample.proxy tt
    (@JoinPath Sample.env "http://proxy:9090" "present") "present"
    Sample.zone Sample.mx (Sample.start 1)
  = (libdns.zero, Some ErrOnlyTXT, Sample.start 1).
Proof.
  apply (@C3_only_txt_records Sample.env Sample.echo). simpl. discriminate.
Defined.

(** The first completed record of the batch above. *)
Lemma C4_witness :
  ∃ uri record,
    ParseRequestURI (Endpoint Sample.proxy) = Ok uri
    ∧ elems Sample.batch !! 0%nat = Some record
    ∧ doAction Sample.echo Sample.proxy tt (JoinPath uri "present") "present"
        Sample.zone record
        (world_after Sample.echo Sample.proxy tt (JoinPath uri "present")
           "present" Sample.zone (take 0 (elems Sample.batch))
           (Sample.start 1))
      = (Sample.txt "a" "1", None,
         world_after Sample.echo Sample.proxy tt (JoinPath uri "present")
           "present" Sample.zone (take 1 (elems Sample.batch))
           (Sample.start 1))
    ∧ libdns.ID (Sample.txt "a" "1") = libdns.ID record
    ∧ libdns.Name (Sample.txt "a" "1") = libdns.Name record
    ∧ libdns.Value (Sample.txt "a" "1") = libdns.Value record
    ∧ libdns.TTL (Sample.txt "a" "1") = libdns.TTL record
    ∧ libdns.Type' (Sample.txt "a" "1") = "TXT".
Proof.
  eapply (@C4_completed_record_fields Sample.env Sample.echo CallSet
            Sample.proxy tt Sample.zone Sample.batch (Sample.start 1)
            _ _ _ 0%nat (Sample.txt "a" "1")).
  - reflexivity.
  - reflexivity.
Defined.

(** The provider of the package's own test: no endpoint configured. *)
Lemma C5_witness :
  ∃ e,
    call Sample.echo CallAppend (Sample.provider "") tt Sample.zone
      (slice_of []) (Sample.start 1)
    = (slice_nil, Some (ErrInvalidEndpoint (Endpoint (Sample.provider "")) e),
       Sample.start 1)
    ∧ len (@slice_nil libdns.record) = 0%nat.
Proof.
  apply (@C5_invalid_endpoint Sample.env Sample.echo CallAppend
           (Sample.provider "") tt Sample.zone (slice_of [])
           (Sample.start 1)).
  left. reflexivity.
Defined.

Lemma C7_witness :
  posts_only_to "http://proxy:9090/present" (Sample.start 1)
    (AppendRecords Sample.echo Sample.proxy tt Sample.zone Sample.batch
       (Sample.start 1)).2
  ∧ posts_only_to "http://proxy:9090/cleanup" (Sample.start 1)
      (DeleteRecords Sample.echo Sample.proxy tt Sample.zone Sample.batch
         (Sample.start 1)).2.
Proof.
  destruct (@C7_present_and_cleanup Sample.env Sample.echo Sample.proxy tt
              Sample.zone Sample.batch (Sample.start 1))
    as (_ & _ & _ & Hposts).
  destruct (Hposts "http://proxy:9090" eq_refl) as (_ & Happend & Hdelete).
  split; [exact Happend | exact Hdelete].
Defined.

Lemma C8_witness :
  ∃ new : list Exchange,
    trace (SetRecords Sample.echo Sample.proxy tt Sample.zone Sample.batch
             (Sample.start 1)).2
    = trace (Sample.start 1) ++ new
    ∧ Forall (fun x : Exchange =>
        (is_Some (Header x.1 !! "Authorization")
         ↔ Username (Provider_Credentials Sample.proxy) ≠ ""
           ∨ Password (Provider_Credentials Sample.proxy) ≠ "")
        ∧ (∀ v, Header x.1 !! "Authorization" = Some v →
             v = ["Basic " +:+ @base64 Sample.env
                    (Username (Provider_Credentials Sample.proxy) +:+ ":" +:+
                     Password (Provider_Credentials Sample.proxy))])
        ∧ Header x.1 !! "Accept" = Some ["application/json"]
        ∧ Header x.1 !! "Content-Type" = Some ["application/json"]
        ∧ ∃ record,
            record ∈ elems Sample.batch
            ∧ @json_Encode Sample.env
                {| FQDN := @AbsoluteName Sample.env (libdns.Name record)
                             Sample.zone;
                   Value := libdns.Value record |}
              = Ok (req_Body x.1)) new.
Proof.
  eapply (@C8_outbound_requests Sample.env Sample.echo CallSet Sample.proxy
            tt Sample.zone Sample.batch (Sample.start 1)).
  reflexivity.
Defined.

Lemma C9_witness :
  call Sample.echo CallDelete Sample.proxy tt Sample.zone slice_nil
    (Sample.start 1)
  = (slice_of [], None, Sample.start 1)
  ∧ @slice_of libdns.record [] ≠ slice_nil.
Proof.
  apply (@C9_empty_batch Sample.env Sample.echo CallDelete Sample.proxy tt
           Sample.zone slice_nil (Sample.start 1) "http://proxy:9090").
  - reflexivity.
  - reflexivity.
Defined.

Lemma C10_witness :
  elems (slice_of [Sample.txt "a" "1"])
  = completed_of <$> take (len (slice_of [Sample.txt "a" "1"]))
                       (elems Sample.batch)
  ∧ (len (slice_of [Sample.txt "a" "1"]) ≤ length (elems Sample.batch))%nat
  ∧ (Some (ErrCouldNot "present" "b" (@ErrStatusCode Sample.env 500)) = None →
     len (slice_of [Sample.txt "a" "1"]) = length (elems Sample.batch)).
Proof.
  apply (@C10_completed_is_prefix Sample.env Sample.echo CallSet Sample.proxy
           tt Sample.zone Sample.batch (Sample.start 1)
           (slice_of [Sample.txt "a" "1"])
           (Some (ErrCouldNot "present" "b" (@ErrStatusCode Sample.env 500)))
           (SetRecords Sample.echo Sample.proxy tt Sample.zone Sample.batch
              (Sample.start 1)).2).
  reflexivity.
Defined.

(** ** The further properties in the sample environment *)

(** A client that cannot reach the proxy. *)
Lemma X1_witness :
  ∃ out (e : @error Sample.env) w',
    doAction Sample.offline Sample.proxy tt
      (@JoinPath Sample.env "http://proxy:9090" "present") "present"
      Sample.zone (Sample.txt "a" "1") (Sample.start 1)
    = (out, Some e, w')
    ∧ e = @ErrSend Sample.env "connection refused"
    ∧ out = libdns.zero
    ∧ ((fails_before_sending e ∧ w' = Sample.start 1)
       ∨ (fails_after_sending e
          ∧ ∃ req res,
              trace w' = trace (Sample.start 1) ++ [(req, res)]
              ∧ Do (getClient Sample.offline Sample.proxy) req
                  (net (Sample.start 1))
                = (res, net w'))).
Proof.
  eexists _, _, _. split; [reflexivity|]. split; [reflexivity|].
  apply (@X1_error_tells_whether_sent Sample.env Sample.offline Sample.proxy
           tt (@JoinPath Sample.env "http://proxy:9090" "present") "present"
           Sample.zone (Sample.txt "a" "1") (Sample.start 1)).
  reflexivity.
Defined.

(** A proxy out of budget answers 500. *)
Lemma X2_witness :
  ∃ out err w' req res,
    doAction Sample.echo Sample.proxy tt
      (@JoinPath Sample.env "http://proxy:9090" "present") "present"
      Sample.zone (Sample.txt "a" "1") (Sample.start 0)
    = (out, err, w')
    ∧ trace w' = trace (Sample.start 0) ++ [(req, res)]
    ∧ err = Some (ErrStatusCode 500)
    ∧ match res with
      | Err e => err = Some (ErrSend e)
      | Ok resp =>
          if decide (StatusCode resp = StatusOK) then
            ∀ e, @json_Decode Sample.env (resp_Body resp) = Err e →
                 err = Some (ErrUnmarshal e)
          else err = Some (ErrStatusCode (StatusCode resp))
      end.
Proof.
  eexists _, _, _, _, _.
  split; [reflexivity|]. split; [reflexivity|]. split; [reflexivity|].
  apply (@X2_answer_decides_error Sample.env Sample.echo Sample.proxy tt
           (@JoinPath Sample.env "http://proxy:9090" "present") "present"
           Sample.zone (Sample.txt "a" "1") (Sample.start 0)
           _ _ _ _ _ eq_refl eq_refl).
Defined.

Lemma X3_witness :
  ∃ new : list Exchange,
    trace (SetRecords Sample.echo Sample.proxy tt Sample.zone Sample.batch
             (Sample.start 1)).2
    = trace (Sample.start 1) ++ new
    ∧ ∀ (i : nat) x, new !! i = Some x →
        ∃ r, elems Sample.batch !! i = Some r
             ∧ libdns.Type' r = "TXT"
             ∧ @json_Encode Sample.env
                 {| FQDN := @AbsoluteName Sample.env (libdns.Name r)
                              Sample.zone;
                    Value := libdns.Value r |}
               = Ok (req_Body x.1).
Proof.
  eapply (@X3_requests_in_input_order Sample.env Sample.echo CallSet
            Sample.proxy tt Sample.zone Sample.batch (Sample.start 1)).
  reflexivity.
Defined.

Lemma X4_witness :
  ∃ new : list (@Exchange Sample.env),
    trace (DeleteRecords Sample.echo Sample.proxy tt Sample.zone Sample.batch
             (Sample.start 1)).2
    = trace (Sample.start 1) ++ new
    ∧ Forall (fun x : @Exchange Sample.env =>
        req_ctx x.1 = tt
        ∧ dom (Header x.1)
          = if decide (Username (Provider_Credentials Sample.proxy) ≠ ""
                       ∨ Password (Provider_Credentials Sample.proxy) ≠ "")
            then {[ "Accept"; "Content-Type"; "Authorization" ]}
            else {[ "Accept"; "Content-Type" ]}) new.
Proof.
  eapply (@X4_context_and_header_names Sample.env Sample.echo CallDelete
            Sample.proxy tt Sample.zone Sample.batch (Sample.start 1)).
  reflexivity.
Defined.

Lemma X5_witness :
  ∃ completed err w',
    call Sample.echo CallSet Sample.proxy tt Sample.zone Sample.batch
      (Sample.start 1)
    = (completed, err, w')
    ∧ ∃ new : list Exchange,
        trace w' = trace (Sample.start 1) ++ new
        ∧ (len completed ≤ length new ≤ len completed + 1)%nat
        ∧ (err = None → length new = length (elems Sample.batch)).
Proof.
  eexists _, _, _. split; [reflexivity|].
  eapply (@X5_one_exchange_per_record Sample.env Sample.echo CallSet
           Sample.proxy tt Sample.zone Sample.batch (Sample.start 1)).
  reflexivity.
Defined.

Lemma X6_witness :
  ∃ completed err w',
    call Sample.echo CallSet Sample.proxy tt Sample.zone Sample.batch
      (Sample.start 1)
    = (completed, err, w')
    ∧ (0 < len completed)%nat
    ∧ ∃ r req resp,
        elems Sample.batch !! 0%nat = Some r
        ∧ trace w' !! (length (trace (Sample.start 1)) + 0)%nat
          = Some (req, Ok resp)
        ∧ StatusCode resp = StatusOK
        ∧ @json_Decode Sample.env (resp_Body resp)
          = Ok {| FQDN := @AbsoluteName Sample.env (libdns.Name r) Sample.zone;
                  Value := libdns.Value r |}.
Proof.
  eexists _, _, _. split; [reflexivity|]. split; [unfold len; simpl; lia|].
  eapply (@X6_completed_were_confirmed Sample.env Sample.echo CallSet
            Sample.proxy tt Sample.zone Sample.batch (Sample.start 1)
            _ _ _ 0%nat).
  - reflexivity.
  - unfold len. simpl. lia.
Defined.


Lemma X8_witness :
  ∃ completed (e : @error Sample.env) w',
    call Sample.echo CallDelete Sample.proxy tt Sample.zone Sample.batch
      (Sample.start 2)
    = (completed, Some e, w')
    ∧ ∃ r cause,
        elems Sample.batch !! len completed = Some r
        ∧ e = ErrCouldNot "cleanup" (libdns.Name r) cause
        ∧ error_at Sample.echo Sample.proxy tt
            (@JoinPath Sample.env "http://proxy:9090" "cleanup") "cleanup"
            Sample.zone (elems Sample.batch) (Sample.start 2)
            (len completed) r
          = Some cause.
Proof.
  eexists _, _, _. split; [reflexivity|].
  eapply (@X8_error_names_failing_record Sample.env Sample.echo CallDelete
           Sample.proxy tt Sample.zone Sample.batch (Sample.start 2)
           "http://proxy:9090").
  - reflexivity.
  - reflexivity.
Defined.

(** A batch whose first record is not a TXT record: the list is empty, not
    nil. *)
Lemma X9_witness :
  ∃ completed err w',
    call Sample.echo CallSet Sample.proxy tt Sample.zone
      (slice_of [Sample.mx]) (Sample.start 1)
    = (completed, err, w')
    ∧ completed = slice_of []
    ∧ (completed = slice_nil
       ↔ ∃ e, @ParseRequestURI Sample.env (Endpoint Sample.proxy) = Err e)
    ∧ (completed = slice_nil
       ↔ ∃ e, err = Some (@ErrInvalidEndpoint Sample.env
                            (Endpoint Sample.proxy) e)).
Proof.
  eexists _, _, _. split; [reflexivity|]. split; [reflexivity|].
  eapply (@X9_nil_list_means_invalid_endpoint Sample.env Sample.echo CallSet
           Sample.proxy tt Sample.zone (slice_of [Sample.mx])
           (Sample.start 1)).
  reflexivity.
Defined.

(** The sample provider has no client of its own. *)
Lemma X11_witness :
  call Sample.echo CallSet Sample.proxy tt Sample.zone Sample.batch
    (Sample.start 1)
  = call Sample.offline CallSet (with_client Sample.proxy Sample.echo) tt
      Sample.zone Sample.batch (Sample.start 1).
Proof.
  apply (proj2 (@X11_client_selection Sample.env Sample.echo CallSet
                  Sample.proxy tt Sample.zone Sample.batch (Sample.start 1)
                  Sample.offline)).
  reflexivity.
Defined.

